(** * PyTeal leaf expressions: [Global], [Int] and [EnumInt]

    A shallow embedding of [pyteal/ast/global_.py] and [pyteal/ast/int.py],
    with the properties of their constructors, of their lowering
    ([__teal__]), of their renderings ([__str__]) and of [type_of]. *)

From Stdlib Require Import ZArith String List Lia.
From stdpp Require Import base option list gmap strings pretty.
Import ListNotations.

Local Open Scope string_scope.
Local Open Scope Z_scope.

(** ** Python values and exceptions *)

(** The classes of the values a caller can hand to [Int(...)]. *)
Inductive PyType : Set :=
| ty_int | ty_bool | ty_float | ty_str | ty_bytes | ty_NoneType.

#[global] Instance PyType_eq_dec : EqDecision PyType.
Proof. solve_decision. Defined.

(** Python values. Integers are unbounded; a finite float is
    [mantissa * 2 ^ exponent]. *)
Inductive PyValue : Set :=
| PyInt (z : Z)
| PyBool (b : bool)
| PyFloat (mantissa exponent : Z)
| PyStr (s : string)
| PyBytes (bs : list Byte.byte)
| PyNone.

(** [type(value)]: the exact class of a value. *)
Definition type (value : PyValue) : PyType :=
  match value with
  | PyInt _ => ty_int
  | PyBool _ => ty_bool
  | PyFloat _ _ => ty_float
  | PyStr _ => ty_str
  | PyBytes _ => ty_bytes
  | PyNone => ty_NoneType
  end.

(** [issubclass(c, d)] on these classes: [bool] derives from [int]. *)
Definition issubclass (c d : PyType) : bool :=
  bool_decide (c = d) || (bool_decide (c = ty_bool) && bool_decide (d = ty_int)).

(** [isinstance(value, d)]. *)
Definition isinstance (value : PyValue) (d : PyType) : bool :=
  issubclass (type value) d.

(** The [__name__] of a class. *)
Definition PyType_name (c : PyType) : string :=
  match c with
  | ty_int => "int"
  | ty_bool => "bool"
  | ty_float => "float"
  | ty_str => "str"
  | ty_bytes => "bytes"
  | ty_NoneType => "NoneType"
  end.

(** ["{}".format(c)] for a class [c]. *)
Definition format_type (c : PyType) : string :=
  "<class '" +:+ PyType_name c +:+ "'>".

(** [t in s] on strings: [t] occurs in [s] as a contiguous run. *)
Fixpoint str_in (t s : string) : bool :=
  if String.prefix t s then true
  else match s with
       | EmptyString => false
       | String _ s' => str_in t s'
       end.

(** Exceptions raised by the modelled code. [TealInputError] carries its
    message. [UnsupportedVersionError] is the failure of the version check
    (see [verifyFieldVersion] below). [KeyError] is what a dictionary
    subscript raises on a missing key. [TypeError] is what a call raises
    when the number of positional arguments does not fit the callee:
    [expected] were needed, [given] were passed. [ValueError] is what the
    conversion of an integer to a decimal string raises above the
    interpreter's digit limit. [AttributeError] is what reading an
    attribute that is not there raises. *)
Inductive Exception : Type :=
| TealInputError (msg : string)
| UnsupportedVersionError (field : string) (minVersion requested : Z)
| KeyError (key : string)
| TypeError (callee : string) (expected given : nat)
| ValueError (max_str_digits : Z)
| AttributeError (attr : string).

(** Outcome of a call that may raise. *)
Inductive result (A : Type) : Type :=
| Ok (a : A)
| Raise (e : Exception).
Arguments Ok {A} a.
Arguments Raise {A} e.

#[global] Instance result_ret : MRet result := fun A a => Ok a.
#[global] Instance result_bind : MBind result := fun A B f r =>
  match r with
  | Ok a => f a
  | Raise e => Raise e
  end.

(** The interpreter's default limit on the number of digits of an integer
    converted to a decimal string. *)
Definition int_max_str_digits : Z := 4300.

(** ["{}".format(z)] for an integer: its decimal form, with a leading
    minus sign when negative. The conversion raises [ValueError] when the
    integer has more than [int_max_str_digits] digits, the sign not
    counted, that is, when its absolute value is at least
    [10 ^ int_max_str_digits]. *)
Definition format_int (z : Z) : result string :=
  if (10 ^ int_max_str_digits <=? Z.abs z)%Z then Raise (ValueError int_max_str_digits)
  else Ok (pretty z).

(** A dictionary display [{k1: v1, k2: v2, ...}]: entries are stored from
    left to right, so a repeated key keeps its last value. *)
Definition dict_literal {V : Type} (entries : list (string * V)) : gmap string V :=
  foldl (fun d kv => <[kv.1 := kv.2]> d) ∅ entries.

(** [d[key]]: raises [KeyError] when the key is absent. *)
Definition subscript {V : Type} (d : gmap string V) (key : string) : result V :=
  match d !! key with
  | Some v => Ok v
  | None => Raise (KeyError key)
  end.

(** [key in d]. *)
Definition dict_in {V : Type} (key : string) (d : gmap string V) : bool :=
  bool_decide (is_Some (d !! key)).

(** ** Collaborators: types, compile options, errors *)

Module TealType.
(** Modelled from the spec: [pyteal/types.py] is not among the sources.
    The result types attached to expression nodes; the two the registry
    uses are the unsigned 64-bit integer and the byte string. *)
Inductive t : Set := uint64 | bytes.

#[global] Instance eq_dec : EqDecision t.
Proof. solve_decision. Defined.
End TealType.

(** Modelled from the spec: [CompileOptions] lives in [pyteal/compiler.py],
    which is not among the sources. The lowering context carries the target
    bytecode version; the nodes modelled here read nothing else from it. *)
Record CompileOptions : Set := { version : Z }.

(** Modelled from the spec: [verifyFieldVersion] lives in
    [pyteal/errors.py], which is not among the sources. It succeeds iff the
    requested version is at least the field's minimum version, and otherwise
    fails with an error carrying the field's canonical name, its minimum
    version and the requested version. *)
Definition verifyFieldVersion (fieldName : string) (fieldMinVersion version : Z)
  : result unit :=
  if (fieldMinVersion <=? version)%Z then Ok tt
  else Raise (UnsupportedVersionError fieldName fieldMinVersion version).

(** ** The field registry ([global_.py]) *)

Module GlobalField.

Inductive t : Set :=
| min_txn_fee
| min_balance
| max_txn_life
| zero_address
| group_size
| logic_sig_version
| round
| latest_timestamp
| current_app_id
| creator_address.

#[global] Instance eq_dec : EqDecision t.
Proof. solve_decision. Defined.

(** The member's value: the tuple written next to its name. *)
Definition value (f : t) : Z * string * TealType.t * Z :=
  match f with
  | min_txn_fee => (0, "MinTxnFee", TealType.uint64, 2)
  | min_balance => (1, "MinBalance", TealType.uint64, 2)
  | max_txn_life => (2, "MaxTxnLife", TealType.uint64, 2)
  | zero_address => (3, "ZeroAddress", TealType.bytes, 2)
  | group_size => (4, "GroupSize", TealType.uint64, 2)
  | logic_sig_version => (5, "LogicSigVersion", TealType.uint64, 2)
  | round => (6, "Round", TealType.uint64, 2)
  | latest_timestamp => (7, "LatestTimestamp", TealType.uint64, 2)
  | current_app_id => (8, "CurrentApplicationID", TealType.uint64, 2)
  | creator_address => (9, "CreatorAddress", TealType.bytes, 3)
  end.

(** The attributes [__init__] stores from the tuple. *)
Definition id (f : t) : Z := (value f).1.1.1.
Definition arg_name (f : t) : string := (value f).1.1.2.
Definition ret_type (f : t) : TealType.t := (value f).1.2.
Definition min_version (f : t) : Z := (value f).2.

Definition type_of (f : t) : TealType.t := ret_type f.

(** The members, in definition order. *)
Definition members : list t :=
  [ min_txn_fee; min_balance; max_txn_life; zero_address; group_size;
    logic_sig_version; round; latest_timestamp; current_app_id;
    creator_address ].

End GlobalField.

(** ** Expression nodes and the instruction IR *)

(** Instance attributes of the three node classes. *)
Record Global_t : Set := { field : GlobalField.t }.
Record Int_t : Set := { value : Z }.
Record EnumInt_t : Set := { name : string }.

(** The leaf expressions of this core. *)
Inductive Expr : Set :=
| Expr_Global (g : Global_t)
| Expr_Int (i : Int_t)
| Expr_EnumInt (e : EnumInt_t).

Module Op.
(** The two opcodes these nodes emit ([Op] comes from [pyteal/ir]). *)
Inductive t : Set := int | global_.
End Op.

(** What a call can be handed as a positional argument, and what the IR
    builders store: plain values, nodes, opcodes, compile options, and the
    instructions [TealOp] builds. *)
#[warnings="-register-all"]
Inductive PyObject : Set :=
| Obj_value (v : PyValue)
| Obj_Expr (e : Expr)
| Obj_Op (o : Op.t)
| Obj_Options (o : CompileOptions)
| Obj_TealOp (expr op : PyObject) (args : list PyObject).

(** Modelled from the spec: [TealOp] comes from [pyteal/ir], which is not
    among the sources. An instruction is a back-reference to the node it
    was emitted for, an opcode, and an ordered sequence of literal
    operands; [Global.__teal__] calls it as [TealOp(self, Op.global_, name)],
    so its parameters are [expr], [op] and the operands. A call binds its
    positional arguments to them from left to right, whatever their
    classes, and raises [TypeError] when fewer than two are given. *)
Definition TealOp (posargs : list PyObject) : result PyObject :=
  match posargs with
  | expr :: op :: args => Ok (Obj_TealOp expr op args)
  | _ => Raise (TypeError "TealOp" 2 (length posargs))
  end.

Module TealBlock.
(** Modelled from the spec: [TealBlock] comes from [pyteal/ir], which is
    not among the sources. The minimal lowering result wraps exactly one
    instruction. *)
Record t : Set := { ops : list PyObject }.

(** [TealBlock.FromOp] wraps a single instruction given the current compile
    options; [Global.__teal__] calls it as [TealBlock.FromOp(options, op)],
    so its parameters are [(options, op)]. A call with another number of
    positional arguments raises [TypeError]. *)
Definition FromOp (posargs : list PyObject) : result t :=
  match posargs with
  | [options; op] => Ok {| ops := [op] |}
  | _ => Raise (TypeError "TealBlock.FromOp" 2 (length posargs))
  end.
End TealBlock.

Module Global.

Definition __init__ (field : GlobalField.t) : Global_t := {| field := field |}.

Definition __teal__ (self : Global_t) (options : CompileOptions)
  : result TealBlock.t :=
  _ ← verifyFieldVersion (GlobalField.arg_name (field self))
        (GlobalField.min_version (field self)) (version options);
  op ← TealOp [Obj_Expr (Expr_Global self); Obj_Op Op.global_;
               Obj_value (PyStr (GlobalField.arg_name (field self)))];
  TealBlock.FromOp [Obj_Options options; op].

Definition __str__ (self : Global_t) : string :=
  "(Global " +:+ GlobalField.arg_name (field self) +:+ ")".

Definition type_of (self : Global_t) : TealType.t :=
  GlobalField.type_of (field self).

(** The factories. *)
Definition min_txn_fee : Global_t := __init__ GlobalField.min_txn_fee.
Definition min_balance : Global_t := __init__ GlobalField.min_balance.
Definition max_txn_life : Global_t := __init__ GlobalField.max_txn_life.
Definition zero_address : Global_t := __init__ GlobalField.zero_address.
Definition group_size : Global_t := __init__ GlobalField.group_size.
Definition logic_sig_version : Global_t := __init__ GlobalField.logic_sig_version.
Definition round : Global_t := __init__ GlobalField.round.
Definition latest_timestamp : Global_t := __init__ GlobalField.latest_timestamp.
Definition current_application_id : Global_t := __init__ GlobalField.current_app_id.
Definition creator_address : Global_t := __init__ GlobalField.creator_address.

End Global.

(** ** Integer literals ([int.py]) *)

Module Int.

Definition __init__ (v : PyValue) : result Int_t :=
  if negb (bool_decide (type v = ty_int)) then
    Raise (TealInputError ("invalid input type " +:+ format_type (type v) +:+ " to Int"))
  else
    match v with
    | PyInt z =>
        if ((0 <=? z) && (z <? 2 ^ 64))%Z then Ok {| value := z |}
        else
          s ← format_int z;
          Raise (TealInputError ("Int " +:+ s +:+ " is out of range"))
    | _ => (* not reached: the class test above has raised *)
        Raise (TealInputError ("invalid input type " +:+ format_type (type v) +:+ " to Int"))
    end.

(** [TealOp(Op.int, self.value)] binds the opcode to [expr] and the value
    to [op]; [TealBlock.FromOp(op)] passes one argument. *)
Definition __teal__ (self : Int_t) : result TealBlock.t :=
  op ← TealOp [Obj_Op Op.int; Obj_value (PyInt (value self))];
  TealBlock.FromOp [op].

Definition __str__ (self : Int_t) : result string :=
  s ← format_int (value self);
  mret ("(Int: " +:+ s +:+ ")").

Definition type_of (self : Int_t) : TealType.t := TealType.uint64.

End Int.

Definition intEnumValues : gmap string Z :=
  dict_literal
    [ (* OnComplete values *)
      ("NoOp", 0); ("OptIn", 1); ("CloseOut", 2); ("ClearState", 3);
      ("UpdateApplication", 4); ("DeleteApplication", 5);
      (* TxnType values *)
      ("unknown", 0); ("pay", 1); ("keyreg", 2); ("acfg", 3); ("axfer", 4);
      ("afrz", 5); ("appl", 6) ].

Module EnumInt.

Definition __init__ (n : string) : result EnumInt_t :=
  if negb (dict_in n intEnumValues) then
    Raise (TealInputError ("Unknown int enum value: " +:+ n))
  else Ok {| name := n |}.

Definition __teal__ (self : EnumInt_t) : result TealBlock.t :=
  v ← subscript intEnumValues (name self);
  op ← TealOp [Obj_Op Op.int; Obj_value (PyInt v)];
  TealBlock.FromOp [op].

Definition __str__ (self : EnumInt_t) : string :=
  "(IntEnum: " +:+ name self +:+ ")".

Definition type_of (self : EnumInt_t) : TealType.t := TealType.uint64.

End EnumInt.

(** The instructions a lowering attempt hands back to its caller: those of
    the returned block, and none when the attempt raised. *)
Definition instructions (r : result TealBlock.t) : list PyObject :=
  match r with
  | Ok b => TealBlock.ops b
  | Raise _ => []
  end.

#[global] Instance Global_t_eq_dec : EqDecision Global_t.
Proof. solve_decision. Defined.

(** The ten factory class methods of [Global], in the order they are
    written. *)
Definition Global_factories : list Global_t :=
  [ Global.min_txn_fee; Global.min_balance; Global.max_txn_life;
    Global.zero_address; Global.group_size; Global.logic_sig_version;
    Global.round; Global.latest_timestamp; Global.current_application_id;
    Global.creator_address ].

(** The entries of the [intEnumValues] display, as written. *)
Definition intEnumValues_entries : list (string * Z) :=
  [ ("NoOp", 0); ("OptIn", 1); ("CloseOut", 2); ("ClearState", 3);
    ("UpdateApplication", 4); ("DeleteApplication", 5);
    ("unknown", 0); ("pay", 1); ("keyreg", 2); ("acfg", 3); ("axfer", 4);
    ("afrz", 5); ("appl", 6) ].

(** ** Nodes as objects: attributes before and after a call

    A method body reads and assigns attributes of [self]. Here a body is a
    function from the attributes of [self] before the call to the
    attributes after it, together with the outcome. Each class has one
    instance attribute, unset until [__init__] assigns it. *)

Module Obj.

Definition Method (S A : Type) : Type := S -> S * result A.

Definition ret {S A : Type} (a : A) : Method S A := fun s => (s, Ok a).

Definition bind {S A B : Type} (m : Method S A) (k : A -> Method S B) : Method S B :=
  fun s =>
    match m s with
    | (s', Ok a) => k a s'
    | (s', Raise e) => (s', Raise e)
    end.

(** A call that has no access to [self]. *)
Definition lift {S A : Type} (r : result A) : Method S A := fun s => (s, r).

(** [self.attr], for the attribute of the class. *)
Definition getattr {V : Type} (attr : string) : Method (option V) V :=
  fun s =>
    match s with
    | Some v => (s, Ok v)
    | None => (s, Raise (AttributeError attr))
    end.

(** [self.attr = v]. *)
Definition setattr {V : Type} (attr : string) (v : V) : Method (option V) unit :=
  fun _ => (Some v, Ok tt).

#[global] Instance Method_ret {S : Type} : MRet (Method S) := fun A a => ret a.
#[global] Instance Method_bind {S : Type} : MBind (Method S) := fun A B k m => bind m k.

Module Global.

(** [super().__init__()] belongs to [LeafExpr], which is not among the
    sources; the assignment is what the body itself does. *)
Definition __init__ (field : GlobalField.t) : Method (option GlobalField.t) unit :=
  setattr "field" field.

(** [self] is handed to [TealOp] as the node with its attribute as it is
    at that point. *)
Definition __teal__ (options : CompileOptions)
  : Method (option GlobalField.t) TealBlock.t :=
  f1 ← getattr "field";
  f2 ← getattr "field";
  _ ← lift (verifyFieldVersion (GlobalField.arg_name f1)
               (GlobalField.min_version f2) (version options));
  f3 ← getattr "field";
  op ← lift (TealOp [Obj_Expr (Expr_Global {| field := f3 |}); Obj_Op Op.global_;
                      Obj_value (PyStr (GlobalField.arg_name f3))]);
  lift (TealBlock.FromOp [Obj_Options options; op]).

Definition type_of : Method (option GlobalField.t) TealType.t :=
  f ← getattr "field";
  ret (GlobalField.type_of f).

End Global.

Module Int.

Definition __init__ (v : PyValue) : Method (option Z) unit :=
  if negb (bool_decide (type v = ty_int)) then
    lift (Raise (TealInputError ("invalid input type " +:+ format_type (type v) +:+ " to Int")))
  else
    match v with
    | PyInt z =>
        if ((0 <=? z) && (z <? 2 ^ 64))%Z then setattr "value" z
        else
          s ← lift (format_int z);
          lift (Raise (TealInputError ("Int " +:+ s +:+ " is out of range")))
    | _ =>
        lift (Raise (TealInputError ("invalid input type " +:+ format_type (type v) +:+ " to Int")))
    end.

Definition __teal__ : Method (option Z) TealBlock.t :=
  v ← getattr "value";
  op ← lift (TealOp [Obj_Op Op.int; Obj_value (PyInt v)]);
  lift (TealBlock.FromOp [op]).

Definition type_of : Method (option Z) TealType.t := ret TealType.uint64.

End Int.

Module EnumInt.

Definition __init__ (n : string) : Method (option string) unit :=
  if negb (dict_in n intEnumValues) then
    lift (Raise (TealInputError ("Unknown int enum value: " +:+ n)))
  else setattr "name" n.

Definition __teal__ : Method (option string) TealBlock.t :=
  n ← getattr "name";
  v ← lift (subscript intEnumValues n);
  op ← lift (TealOp [Obj_Op Op.int; Obj_value (PyInt v)]);
  lift (TealBlock.FromOp [op]).

Definition type_of : Method (option string) TealType.t := ret TealType.uint64.

End EnumInt.

(** An instance of one of the three classes, with its attribute. *)
Inductive Instance : Set :=
| Inst_Global (field : option GlobalField.t)
| Inst_Int (value : option Z)
| Inst_EnumInt (name : option string).

(** [cls(...)]: [__init__] runs on a fresh instance; the instance is
    handed back unless [__init__] raised. *)
Definition construct {S : Type} (wrap : option S -> Instance)
    (init : Method (option S) unit) : result Instance :=
  match init None with
  | (s, Ok _) => Ok (wrap s)
  | (_, Raise e) => Raise e
  end.

Definition new_Global (field : GlobalField.t) : result Instance :=
  construct Inst_Global (Global.__init__ field).

Definition new_Int (v : PyValue) : result Instance :=
  construct Inst_Int (Int.__init__ v).

Definition new_EnumInt (n : string) : result Instance :=
  construct Inst_EnumInt (EnumInt.__init__ n).

(** Running a method of an instance's class and putting the attributes it
    leaves back into the instance. *)
Definition run {S A : Type} (wrap : S -> Instance) (m : Method S A) (s : S)
  : Instance * result A :=
  (wrap (m s).1, (m s).2).

(** [node.type_of(...)] with the positional arguments [posargs]: every
    [type_of] takes [self] only. *)
Definition call_type_of (posargs : list PyObject) (node : Instance)
  : Instance * result TealType.t :=
  match posargs with
  | [] =>
      match node with
      | Inst_Global s => run Inst_Global Global.type_of s
      | Inst_Int s => run Inst_Int Int.type_of s
      | Inst_EnumInt s => run Inst_EnumInt EnumInt.type_of s
      end
  | _ => (node, Raise (TypeError "type_of" 0 (length posargs)))
  end.

(** [options.version], for whatever was passed as [options]. *)
Definition with_options {S A : Type} (options : PyObject)
    (body : CompileOptions -> Method S A) : Method S A :=
  match options with
  | Obj_Options o => body o
  | _ => lift (Raise (AttributeError "version"))
  end.

(** [node.__teal__(...)] with the positional arguments [posargs]:
    [Global.__teal__] takes [self] and the options, [Int.__teal__] and [EnumInt.__teal__] take [self] only. *)
Definition call___teal__ (posargs : list PyObject) (node : Instance)
  : Instance * result TealBlock.t :=
  match node with
  | Inst_Global s =>
      match posargs with
      | [options] => run Inst_Global (with_options options Global.__teal__) s
      | _ => (node, Raise (TypeError "Global.__teal__" 1 (length posargs)))
      end
  | Inst_Int s =>
      match posargs with
      | [] => run Inst_Int Int.__teal__ s
      | _ => (node, Raise (TypeError "Int.__teal__" 0 (length posargs)))
      end
  | Inst_EnumInt s =>
      match posargs with
      | [] => run Inst_EnumInt EnumInt.__teal__ s
      | _ => (node, Raise (TypeError "EnumInt.__teal__" 0 (length posargs)))
      end
  end.

(** An instance one of the three constructors handed back. *)
Definition constructed (node : Instance) : Prop :=
  (exists f, new_Global f = Ok node) \/
  (exists v, new_Int v = Ok node) \/
  (exists n, new_EnumInt n = Ok node).

End Obj.

(** * Properties *)

(** ** Strings *)

Lemma prefix_app (t s : string) : String.prefix t (t +:+ s) = true.
Proof.
  induction t as [|c t IH]; simpl.
  - by destruct s.
  - destruct (Ascii.ascii_dec c c); [exact IH | done].
Qed.

Lemma str_in_prefix (t s : string) : String.prefix t s = true -> str_in t s = true.
Proof. intros H. destruct s; cbn [str_in]; by rewrite H. Qed.

Lemma str_in_app (pre t suf : string) : str_in t (pre +:+ t +:+ suf) = true.
Proof.
  induction pre as [|c pre IH].
  - change (EmptyString +:+ t +:+ suf) with (t +:+ suf).
    apply str_in_prefix, prefix_app.
  - change (String c pre +:+ t +:+ suf) with (String c (pre +:+ t +:+ suf)).
    cbn [str_in]. rewrite IH. by destruct (String.prefix t _).
Qed.

Lemma string_length_app (s1 s2 : string) :
  String.length (s1 +:+ s2) = (String.length s1 + String.length s2)%nat.
Proof. induction s1 as [|c s1 IH]; simpl; [reflexivity | by f_equal]. Qed.

Lemma string_app_inj_r (s1 s2 t : string) : s1 +:+ t = s2 +:+ t -> s1 = s2.
Proof.
  revert s2. induction s1 as [|c s1 IH]; intros [|d s2] H.
  - reflexivity.
  - apply (f_equal String.length) in H.
    rewrite !string_length_app in H. simpl in H. lia.
  - apply (f_equal String.length) in H.
    rewrite !string_length_app in H. simpl in H. lia.
  - simpl in H. injection H as -> H. by rewrite (IH s2 H).
Qed.

Lemma wrapped_inj (pre suf s1 s2 : string) :
  pre +:+ s1 +:+ suf = pre +:+ s2 +:+ suf -> s1 = s2.
Proof. intros H. apply String.app_inj in H. by apply string_app_inj_r in H. Qed.

(** ** Formatting integers *)

Lemma uint64_below_digit_limit : 2 ^ 64 < 10 ^ int_max_str_digits.
Proof.
  apply Z.lt_le_trans with (10 ^ 20); [reflexivity|].
  apply Z.pow_le_mono_r; [lia | discriminate].
Qed.

Lemma below_uint64_below_digit_limit (z : Z) :
  Z.abs z < 2 ^ 64 -> Z.abs z < 10 ^ int_max_str_digits.
Proof. intros H. eapply Z.lt_trans; [exact H | exact uint64_below_digit_limit]. Qed.

Lemma digit_limit_reached : 10 ^ int_max_str_digits <= Z.abs (10 ^ int_max_str_digits).
Proof. rewrite Z.abs_eq; [reflexivity|]. apply Z.pow_nonneg. lia. Qed.

Lemma format_int_small (z : Z) :
  Z.abs z < 10 ^ int_max_str_digits -> format_int z = Ok (pretty z).
Proof. intros H. unfold format_int. apply Z.leb_gt in H. by rewrite H. Qed.

Lemma format_int_large (z : Z) :
  10 ^ int_max_str_digits <= Z.abs z -> format_int z = Raise (ValueError int_max_str_digits).
Proof. intros H. unfold format_int. apply Z.leb_le in H. by rewrite H. Qed.

Lemma format_int_uint64 (z : Z) : 0 <= z < 2 ^ 64 -> format_int z = Ok (pretty z).
Proof.
  intros H. apply format_int_small, below_uint64_below_digit_limit. lia.
Qed.

Lemma format_int_Ok (z : Z) (s : string) : format_int z = Ok s -> s = pretty z.
Proof. unfold format_int. destruct (_ <=? _); [discriminate | by intros [= <-]]. Qed.

Lemma format_int_Raise (z : Z) (e : Exception) :
  format_int z = Raise e ->
  e = ValueError int_max_str_digits /\ 10 ^ int_max_str_digits <= Z.abs z.
Proof.
  unfold format_int. destruct (_ <=? _) eqn:E; [|discriminate].
  intros [= <-]. split; [reflexivity | by apply Z.leb_le].
Qed.

(** [format_int] writes decimal digits, most significant first, and a
    minus sign for a negative integer; distinct integers render apart. *)
Example format_int_max : format_int (2 ^ 64 - 1) = Ok "18446744073709551615".
Proof. rewrite format_int_uint64 by lia. vm_compute. reflexivity. Qed.

Example format_int_negative : format_int (-42) = Ok "-42".
Proof.
  rewrite format_int_small by (apply below_uint64_below_digit_limit; by vm_compute).
  vm_compute. reflexivity.
Qed.

Example format_int_at_limit : format_int (10 ^ 4300) = Raise (ValueError 4300).
Proof. apply (format_int_large (10 ^ int_max_str_digits)), digit_limit_reached. Qed.

Lemma format_int_inj (x y : Z) (s : string) :
  format_int x = Ok s -> format_int y = Ok s -> x = y.
Proof.
  intros Hx Hy. apply format_int_Ok in Hx, Hy. subst s. by apply pretty_Z_inj.
Qed.

(** ** The enum table *)

Lemma intEnumValues_in_range (n : string) (v : Z) :
  intEnumValues !! n = Some v -> 0 <= v < 2 ^ 64.
Proof.
  revert n v.
  assert (H : map_Forall (fun (_ : string) (v : Z) => 0 <= v < 2 ^ 64) intEnumValues)
    by (eapply (bool_decide_unpack _); vm_compute; exact I).
  exact H.
Qed.

Lemma intEnumValues_known (n : string) (v : Z) :
  intEnumValues !! n = Some v ->
  EnumInt.__init__ n = Ok {| name := n |} /\
  subscript intEnumValues n = Ok v /\
  EnumInt.__teal__ {| name := n |} = Raise (TypeError "TealBlock.FromOp" 2 1).
Proof.
  intros H. unfold EnumInt.__init__, EnumInt.__teal__, dict_in, subscript.
  cbn [name]. rewrite H. split; [|split; reflexivity].
  rewrite bool_decide_eq_true_2 by eauto. reflexivity.
Qed.

(** ** Integer literals *)

Lemma Int_init_int (z : Z) :
  Int.__init__ (PyInt z) =
    if ((0 <=? z) && (z <? 2 ^ 64))%Z then Ok {| value := z |}
    else s ← format_int z; Raise (TealInputError ("Int " +:+ s +:+ " is out of range")).
Proof. reflexivity. Qed.

Lemma Int_init_in_range (z : Z) :
  0 <= z < 2 ^ 64 -> Int.__init__ (PyInt z) = Ok {| value := z |}.
Proof.
  intros [H0 H1]. rewrite Int_init_int.
  apply Z.leb_le in H0. apply Z.ltb_lt in H1. by rewrite H0, H1.
Qed.

Lemma Int_init_not_in_range (z : Z) :
  z < 0 \/ 2 ^ 64 <= z ->
  Int.__init__ (PyInt z) =
    s ← format_int z; Raise (TealInputError ("Int " +:+ s +:+ " is out of range")).
Proof.
  intros H. rewrite Int_init_int.
  destruct (0 <=? z) eqn:E0; [|reflexivity].
  destruct (z <? 2 ^ 64) eqn:E1; [|reflexivity].
  apply Z.leb_le in E0. apply Z.ltb_lt in E1. lia.
Qed.

Lemma Int_init_out_of_range (z : Z) :
  z < 0 \/ 2 ^ 64 <= z -> Z.abs z < 10 ^ int_max_str_digits ->
  Int.__init__ (PyInt z) =
    Raise (TealInputError ("Int " +:+ pretty z +:+ " is out of range")).
Proof.
  intros H L. by rewrite (Int_init_not_in_range z H), (format_int_small z L).
Qed.

Lemma Int_init_too_long (z : Z) :
  10 ^ int_max_str_digits <= Z.abs z ->
  Int.__init__ (PyInt z) = Raise (ValueError int_max_str_digits).
Proof.
  intros L. rewrite Int_init_not_in_range, (format_int_large z L); [reflexivity|].
  pose proof uint64_below_digit_limit as U. revert L U.
  generalize (10 ^ int_max_str_digits). intros; lia.
Qed.

Lemma Int_init_wrong_type (x : PyValue) :
  type x <> ty_int ->
  Int.__init__ x =
    Raise (TealInputError ("invalid input type " +:+ format_type (type x) +:+ " to Int")).
Proof. destruct x; intros H; try reflexivity. by destruct H. Qed.

Lemma Int_init_Ok (x : PyValue) (n : Int_t) :
  Int.__init__ x = Ok n -> x = PyInt (value n) /\ 0 <= value n < 2 ^ 64.
Proof.
  destruct x as [z| | | | |]; try discriminate.
  rewrite Int_init_int.
  destruct (0 <=? z) eqn:E0; [|by destruct (format_int z)].
  destruct (z <? 2 ^ 64) eqn:E1; [|by destruct (format_int z)].
  intros [= <-]. apply Z.leb_le in E0. apply Z.ltb_lt in E1. by cbn.
Qed.

Lemma Int_teal_raises (n : Int_t) :
  Int.__teal__ n = Raise (TypeError "TealBlock.FromOp" 2 1).
Proof. reflexivity. Qed.

(** C3. Every integer [v] with [0 <= v < 2^64] is accepted by [Int(v)]: the
    node holds [v], its [type_of()] is [uint64], and its [__str__]
    rendering, ["(Int: v)"], contains the decimal form of [v]. *)
Theorem Int_accepts_uint64 (v : Z) :
  0 <= v < 2 ^ 64 ->
  exists n : Int_t,
    Int.__init__ (PyInt v) = Ok n /\
    value n = v /\
    Int.type_of n = TealType.uint64 /\
    Int.__str__ n = Ok ("(Int: " +:+ pretty v +:+ ")") /\
    str_in (pretty v) ("(Int: " +:+ pretty v +:+ ")") = true.
Proof.
  intros Hv. exists {| value := v |}.
  rewrite (Int_init_in_range v Hv).
  unfold Int.__str__. cbn [value]. rewrite (format_int_uint64 v Hv).
  repeat split. apply str_in_app.
Qed.

(** The largest accepted literal, [2^64 - 1]. *)
Lemma Int_accepts_uint64_witness :
  exists n : Int_t,
    Int.__init__ (PyInt 18446744073709551615) = Ok n /\
    value n = 18446744073709551615 /\
    Int.type_of n = TealType.uint64 /\
    Int.__str__ n = Ok ("(Int: " +:+ pretty 18446744073709551615 +:+ ")") /\
    str_in (pretty 18446744073709551615)
      ("(Int: " +:+ pretty 18446744073709551615 +:+ ")") = true.
Proof. apply (Int_accepts_uint64 18446744073709551615). lia. Defined.

(** C4. What [Int(x)] and the lowering of its nodes do, against the claim.
    As claimed: every [x] that is not of class [int] is rejected with the
    invalid-input-type error, every integer below [0] or at least [2^64]
    is rejected, and no node is produced. Against the claim: a node the
    constructor did produce never lowers, since [Int.__teal__] calls
    [TealBlock.FromOp] with the instruction alone and the call raises
    [TypeError]; and an out-of-range integer of more than 4300 digits is
    rejected with the [ValueError] of the message formatting, not with the
    out-of-range error. *)
Theorem Int_rejects_bad_input (x : PyValue) :
  (type x <> ty_int \/ exists z, x = PyInt z /\ (z < 0 \/ 2 ^ 64 <= z)) ->
  (forall n : Int_t, Int.__init__ x <> Ok n) /\
  (type x <> ty_int ->
     Int.__init__ x =
       Raise (TealInputError ("invalid input type " +:+ format_type (type x) +:+ " to Int"))) /\
  (forall z, x = PyInt z -> Z.abs z < 10 ^ int_max_str_digits ->
     Int.__init__ x =
       Raise (TealInputError ("Int " +:+ pretty z +:+ " is out of range"))) /\
  (forall z, x = PyInt z -> 10 ^ int_max_str_digits <= Z.abs z ->
     Int.__init__ x = Raise (ValueError int_max_str_digits)) /\
  (forall (y : PyValue) (n : Int_t),
     Int.__init__ y = Ok n ->
     Int.__teal__ n = Raise (TypeError "TealBlock.FromOp" 2 1) /\
     instructions (Int.__teal__ n) = []).
Proof.
  intros Hbad.
  assert (Hno : forall n : Int_t, Int.__init__ x <> Ok n).
  { intros n Hn. apply Int_init_Ok in Hn as [-> Hr].
    destruct Hbad as [H|(z & [= <-] & H)]; [by destruct H | lia]. }
  split; [exact Hno|]. split; [apply Int_init_wrong_type|].
  split; [|split].
  - intros z -> L. destruct Hbad as [H|(z' & [= <-] & H)]; [by destruct H|].
    by apply Int_init_out_of_range.
  - intros z -> L. by apply Int_init_too_long.
  - intros y n _. split; reflexivity.
Qed.

(** Rejected inputs: [-1], [2^64], [10^4300], the float [1.5], the string
    ["7"]; and the accepted [1], whose node does not lower. *)
Lemma Int_rejects_bad_input_witness :
  Int.__init__ (PyInt (-1)) = Raise (TealInputError "Int -1 is out of range") /\
  Int.__init__ (PyInt 18446744073709551616) =
    Raise (TealInputError "Int 18446744073709551616 is out of range") /\
  Int.__init__ (PyInt (10 ^ 4300)) = Raise (ValueError 4300) /\
  Int.__init__ (PyFloat 3 (-1)) =
    Raise (TealInputError "invalid input type <class 'float'> to Int") /\
  (forall n : Int_t, Int.__init__ (PyStr "7") <> Ok n) /\
  Int.__init__ (PyInt 1) = Ok {| value := 1 |} /\
  Int.__teal__ {| value := 1 |} = Raise (TypeError "TealBlock.FromOp" 2 1).
Proof.
  split; [|split; [|split; [|split; [|split; [|split]]]]].
  - destruct (Int_rejects_bad_input (PyInt (-1))) as (_ & _ & H & _).
    + right. exists (-1). split; [reflexivity | lia].
    + apply (H (-1) eq_refl), below_uint64_below_digit_limit. by vm_compute.
  - destruct (Int_rejects_bad_input (PyInt 18446744073709551616)) as (_ & _ & H & _).
    + right. exists 18446744073709551616. split; [reflexivity | lia].
    + apply (H 18446744073709551616 eq_refl), Z.lt_le_trans with (10 ^ 20);
        [by vm_compute | apply Z.pow_le_mono_r; [lia | discriminate]].
  - destruct (Int_rejects_bad_input (PyInt (10 ^ 4300))) as (_ & _ & _ & H & _).
    + right. exists (10 ^ 4300). split; [reflexivity | right].
      apply Z.lt_le_incl, uint64_below_digit_limit.
    + apply (H (10 ^ 4300) eq_refl), digit_limit_reached.
  - destruct (Int_rejects_bad_input (PyFloat 3 (-1))) as (_ & H & _).
    + left. discriminate.
    + apply H. discriminate.
  - destruct (Int_rejects_bad_input (PyStr "7")) as (H & _).
    + left. discriminate.
    + exact H.
  - reflexivity.
  - destruct (Int_rejects_bad_input (PyStr "7")) as (_ & _ & _ & _ & H).
    + left. discriminate.
    + apply (H (PyInt 1) {| value := 1 |}). reflexivity.
Defined.

(** C10. A boolean is an instance of [int] for [isinstance], yet [Int(True)]
    and [Int(False)] are rejected with the invalid-input-type error, since
    the constructor compares the exact class: neither is taken as [1] or
    [0]. *)
Theorem Int_rejects_bool (b : bool) :
  isinstance (PyBool b) ty_int = true /\
  Int.__init__ (PyBool b) =
    Raise (TealInputError "invalid input type <class 'bool'> to Int") /\
  (forall n : Int_t, Int.__init__ (PyBool b) <> Ok n).
Proof. repeat split. discriminate. Qed.

(** ** Enum literals *)

(** C2. What constructing and lowering an enum literal do, against the
    claim. As claimed: every name of the enum table is accepted by
    [EnumInt], the value the lowering looks up for it is the table's, and
    [Int] accepts that value. Against the claim: neither node lowers to an
    instruction. [EnumInt.__teal__] and [Int.__teal__] call
    [TealBlock.FromOp] with the instruction alone, where [Global.__teal__]
    passes the options and the instruction, and the call raises
    [TypeError]. *)
Theorem EnumInt_and_Int_lowering_raise (n : string) (v : Z) :
  intEnumValues !! n = Some v ->
  exists (e : EnumInt_t) (i : Int_t),
    EnumInt.__init__ n = Ok e /\
    Int.__init__ (PyInt v) = Ok i /\
    subscript intEnumValues (name e) = Ok (value i) /\
    EnumInt.__teal__ e = Raise (TypeError "TealBlock.FromOp" 2 1) /\
    Int.__teal__ i = Raise (TypeError "TealBlock.FromOp" 2 1) /\
    instructions (EnumInt.__teal__ e) = [] /\
    instructions (Int.__teal__ i) = [].
Proof.
  intros H.
  destruct (intEnumValues_known n v H) as (Hinit & Hsub & Hteal).
  exists {| name := n |}, {| value := v |}.
  split; [exact Hinit|].
  split; [apply Int_init_in_range; eapply intEnumValues_in_range, H|].
  split; [exact Hsub|]. rewrite Hteal. repeat split.
Qed.

(** [EnumInt("OptIn")] against [Int(1)]. *)
Lemma EnumInt_and_Int_lowering_raise_witness :
  exists (e : EnumInt_t) (i : Int_t),
    EnumInt.__init__ "OptIn" = Ok e /\
    Int.__init__ (PyInt 1) = Ok i /\
    subscript intEnumValues (name e) = Ok (value i) /\
    EnumInt.__teal__ e = Raise (TypeError "TealBlock.FromOp" 2 1) /\
    Int.__teal__ i = Raise (TypeError "TealBlock.FromOp" 2 1) /\
    instructions (EnumInt.__teal__ e) = [] /\
    instructions (Int.__teal__ i) = [].
Proof. apply (EnumInt_and_Int_lowering_raise "OptIn" 1). vm_compute. reflexivity. Defined.

(** C5. A name that is not a key of the enum table is rejected by the
    [EnumInt] constructor with the unknown-enum-value error, so there is no
    node to lower. *)
Theorem EnumInt_rejects_unknown (n : string) :
  intEnumValues !! n = None ->
  EnumInt.__init__ n = Raise (TealInputError ("Unknown int enum value: " +:+ n)) /\
  (forall e : EnumInt_t, EnumInt.__init__ n <> Ok e).
Proof.
  intros H.
  assert (E : EnumInt.__init__ n =
              Raise (TealInputError ("Unknown int enum value: " +:+ n))).
  { unfold EnumInt.__init__, dict_in.
    rewrite bool_decide_eq_false_2; [reflexivity|].
    rewrite H. by intros [? ?]. }
  split; [exact E|]. intros e He. rewrite E in He. discriminate.
Qed.

(** Lookups are exact: ["optin"] is not ["OptIn"]. *)
Lemma EnumInt_rejects_unknown_witness :
  EnumInt.__init__ "optin" = Raise (TealInputError "Unknown int enum value: optin") /\
  (forall e : EnumInt_t, EnumInt.__init__ "optin" <> Ok e).
Proof. apply (EnumInt_rejects_unknown "optin"). vm_compute. reflexivity. Defined.

(** C9. What lowering two enum names of equal value does, against the
    claim. As claimed: both names are accepted and the lowering of either
    looks up the same integer. Against the claim: neither lowering yields
    an instruction; both end in the same [TypeError] of the
    [TealBlock.FromOp] call, which [EnumInt.__teal__] makes with the
    instruction alone. *)
Theorem EnumInt_same_value_lowering_raises (n1 n2 : string) (v : Z) :
  intEnumValues !! n1 = Some v ->
  intEnumValues !! n2 = Some v ->
  exists e1 e2 : EnumInt_t,
    EnumInt.__init__ n1 = Ok e1 /\
    EnumInt.__init__ n2 = Ok e2 /\
    subscript intEnumValues (name e1) = Ok v /\
    subscript intEnumValues (name e2) = Ok v /\
    EnumInt.__teal__ e1 = Raise (TypeError "TealBlock.FromOp" 2 1) /\
    EnumInt.__teal__ e2 = Raise (TypeError "TealBlock.FromOp" 2 1).
Proof.
  intros H1 H2.
  destruct (intEnumValues_known n1 v H1) as (Hi1 & Hs1 & Ht1).
  destruct (intEnumValues_known n2 v H2) as (Hi2 & Hs2 & Ht2).
  exists {| name := n1 |}, {| name := n2 |}. by repeat split.
Qed.

(** ["OptIn"] and ["pay"] (value 1), ["NoOp"] and ["unknown"] (value 0). *)
Lemma EnumInt_same_value_lowering_raises_witness :
  (exists e1 e2 : EnumInt_t,
     EnumInt.__init__ "OptIn" = Ok e1 /\
     EnumInt.__init__ "pay" = Ok e2 /\
     subscript intEnumValues (name e1) = Ok 1 /\
     subscript intEnumValues (name e2) = Ok 1 /\
     EnumInt.__teal__ e1 = Raise (TypeError "TealBlock.FromOp" 2 1) /\
     EnumInt.__teal__ e2 = Raise (TypeError "TealBlock.FromOp" 2 1)) /\
  (exists e1 e2 : EnumInt_t,
     EnumInt.__init__ "NoOp" = Ok e1 /\
     EnumInt.__init__ "unknown" = Ok e2 /\
     subscript intEnumValues (name e1) = Ok 0 /\
     subscript intEnumValues (name e2) = Ok 0 /\
     EnumInt.__teal__ e1 = Raise (TypeError "TealBlock.FromOp" 2 1) /\
     EnumInt.__teal__ e2 = Raise (TypeError "TealBlock.FromOp" 2 1)).
Proof.
  split.
  - apply (EnumInt_same_value_lowering_raises "OptIn" "pay" 1); vm_compute; reflexivity.
  - apply (EnumInt_same_value_lowering_raises "NoOp" "unknown" 0); vm_compute; reflexivity.
Defined.

(** ** The field registry *)

Lemma GlobalField_members_complete (f : GlobalField.t) : In f GlobalField.members.
Proof. destruct f; cbn; tauto. Qed.

Lemma GlobalField_id_NoDup : NoDup (map GlobalField.id GlobalField.members).
Proof. eapply (bool_decide_unpack _). vm_compute. exact I. Qed.

Lemma GlobalField_arg_name_NoDup : NoDup (map GlobalField.arg_name GlobalField.members).
Proof. eapply (bool_decide_unpack _). vm_compute. exact I. Qed.

(** C8. No two members of [GlobalField] share an id, and no two share a
    canonical name. *)
Theorem GlobalField_id_and_name_unique (f g : GlobalField.t) :
  f <> g ->
  GlobalField.id f <> GlobalField.id g /\
  GlobalField.arg_name f <> GlobalField.arg_name g.
Proof.
  intros Hne. destruct f, g; (by destruct Hne) || (split; discriminate).
Qed.

Lemma GlobalField_id_and_name_unique_witness :
  GlobalField.id GlobalField.round <> GlobalField.id GlobalField.latest_timestamp /\
  GlobalField.arg_name GlobalField.round <>
    GlobalField.arg_name GlobalField.latest_timestamp.
Proof.
  apply (GlobalField_id_and_name_unique GlobalField.round GlobalField.latest_timestamp).
  discriminate.
Defined.

(** ** Lowering a global property *)

Lemma Global_teal_supported (g : Global_t) (o : CompileOptions) :
  GlobalField.min_version (field g) <= version o ->
  Global.__teal__ g o =
    Ok {| TealBlock.ops :=
            [ Obj_TealOp (Obj_Expr (Expr_Global g)) (Obj_Op Op.global_)
                [Obj_value (PyStr (GlobalField.arg_name (field g)))] ] |}.
Proof.
  intros H. unfold Global.__teal__, verifyFieldVersion.
  apply Z.leb_le in H. rewrite H. reflexivity.
Qed.

Lemma Global_teal_unsupported (g : Global_t) (o : CompileOptions) :
  version o < GlobalField.min_version (field g) ->
  Global.__teal__ g o =
    Raise (UnsupportedVersionError (GlobalField.arg_name (field g))
             (GlobalField.min_version (field g)) (version o)).
Proof.
  intros H. unfold Global.__teal__, verifyFieldVersion.
  apply Z.leb_gt in H. rewrite H. reflexivity.
Qed.

(** C1. Lowering a [Global] node for a field with minimum version [m]:
    under a version at least [m] it returns a block of exactly one
    [global] instruction whose operand is the field's canonical name; under
    a version below [m] it fails with the unsupported-version error
    carrying the canonical name, [m] and the requested version, and hands
    back no instruction. *)
Theorem Global_teal_version_gate (f : GlobalField.t) (o : CompileOptions) :
  (GlobalField.min_version f <= version o ->
     Global.__teal__ (Global.__init__ f) o =
       Ok {| TealBlock.ops :=
               [ Obj_TealOp (Obj_Expr (Expr_Global (Global.__init__ f)))
                   (Obj_Op Op.global_)
                   [Obj_value (PyStr (GlobalField.arg_name f))] ] |}) /\
  (version o < GlobalField.min_version f ->
     Global.__teal__ (Global.__init__ f) o =
       Raise (UnsupportedVersionError (GlobalField.arg_name f)
                (GlobalField.min_version f) (version o)) /\
     instructions (Global.__teal__ (Global.__init__ f) o) = []).
Proof.
  split.
  - apply (Global_teal_supported (Global.__init__ f)).
  - intros H. rewrite (Global_teal_unsupported (Global.__init__ f) o H).
    split; reflexivity.
Qed.

(** [round] under version 4, and [zero_address] under version 0. *)
Lemma Global_teal_version_gate_witness :
  Global.__teal__ Global.round {| version := 4 |} =
    Ok {| TealBlock.ops :=
            [ Obj_TealOp (Obj_Expr (Expr_Global Global.round)) (Obj_Op Op.global_)
                [Obj_value (PyStr "Round")] ] |} /\
  Global.__teal__ Global.zero_address {| version := 0 |} =
    Raise (UnsupportedVersionError "ZeroAddress" 2 0) /\
  instructions (Global.__teal__ Global.zero_address {| version := 0 |}) = [].
Proof.
  split.
  - apply (Global_teal_version_gate GlobalField.round {| version := 4 |}).
    cbn. lia.
  - apply (Global_teal_version_gate GlobalField.zero_address {| version := 0 |}).
    cbn. lia.
Defined.

(** C6. The registry rows of [group_size] and [creator_address], and their
    lowering on either side of their minimum version. *)
Theorem group_size_and_creator_address :
  GlobalField.value GlobalField.group_size = (4, "GroupSize", TealType.uint64, 2) /\
  GlobalField.arg_name GlobalField.group_size = "GroupSize" /\
  GlobalField.min_version GlobalField.group_size = 2 /\
  GlobalField.value GlobalField.creator_address =
    (9, "CreatorAddress", TealType.bytes, 3) /\
  GlobalField.arg_name GlobalField.creator_address = "CreatorAddress" /\
  GlobalField.min_version GlobalField.creator_address = 3 /\
  Global.type_of Global.creator_address = TealType.bytes /\
  Global.__teal__ Global.group_size {| version := 1 |} =
    Raise (UnsupportedVersionError "GroupSize" 2 1) /\
  Global.__teal__ Global.group_size {| version := 2 |} =
    Ok {| TealBlock.ops :=
            [ Obj_TealOp (Obj_Expr (Expr_Global Global.group_size)) (Obj_Op Op.global_)
                [Obj_value (PyStr "GroupSize")] ] |} /\
  Global.__teal__ Global.creator_address {| version := 2 |} =
    Raise (UnsupportedVersionError "CreatorAddress" 3 2) /\
  Global.__teal__ Global.creator_address {| version := 3 |} =
    Ok {| TealBlock.ops :=
            [ Obj_TealOp (Obj_Expr (Expr_Global Global.creator_address))
                (Obj_Op Op.global_) [Obj_value (PyStr "CreatorAddress")] ] |}.
Proof. repeat split. Qed.

(** ** Nodes as objects *)

(** Unfolding the sequencing of a method body. *)
Ltac run_method :=
  unfold mbind, mret, Obj.Method_bind, Obj.Method_ret, Obj.bind, Obj.ret,
    Obj.getattr, Obj.setattr, Obj.lift;
  cbn.

(** On a node whose attribute is set, each method body leaves the
    attribute as it found it and has the outcome of the function on nodes
    above. *)
Lemma Obj_Global_teal (f : GlobalField.t) (o : CompileOptions) :
  Obj.Global.__teal__ o (Some f) = (Some f, Global.__teal__ {| field := f |} o).
Proof.
  unfold Obj.Global.__teal__, Global.__teal__, verifyFieldVersion.
  run_method. by destruct (_ <=? _).
Qed.

Lemma Obj_Int_teal (z : Z) :
  Obj.Int.__teal__ (Some z) = (Some z, Int.__teal__ {| value := z |}).
Proof. reflexivity. Qed.

Lemma Obj_EnumInt_teal (n : string) :
  Obj.EnumInt.__teal__ (Some n) = (Some n, EnumInt.__teal__ {| name := n |}).
Proof.
  unfold Obj.EnumInt.__teal__, EnumInt.__teal__, subscript.
  run_method. by destruct (_ !! _).
Qed.

Lemma Obj_new_Global (f : GlobalField.t) :
  Obj.new_Global f = Ok (Obj.Inst_Global (Some (field (Global.__init__ f)))).
Proof. reflexivity. Qed.

Lemma Obj_new_Int (v : PyValue) :
  Obj.new_Int v =
    match Int.__init__ v with
    | Ok n => Ok (Obj.Inst_Int (Some (value n)))
    | Raise e => Raise e
    end.
Proof.
  destruct v as [z| | | | |]; try reflexivity.
  unfold Obj.new_Int, Obj.construct. rewrite Int_init_int.
  unfold Obj.Int.__init__. cbn.
  destruct ((0 <=? z) && (z <? 2 ^ 64)); [reflexivity|].
  run_method. by destruct (format_int z).
Qed.

Lemma Obj_new_EnumInt (n : string) :
  Obj.new_EnumInt n =
    match EnumInt.__init__ n with
    | Ok e => Ok (Obj.Inst_EnumInt (Some (name e)))
    | Raise e => Raise e
    end.
Proof.
  unfold Obj.new_EnumInt, Obj.construct, Obj.EnumInt.__init__, EnumInt.__init__.
  by destruct (dict_in n intEnumValues).
Qed.

Lemma Obj_constructed_inv (node : Obj.Instance) :
  Obj.constructed node ->
  (exists f, node = Obj.Inst_Global (Some f)) \/
  (exists z, node = Obj.Inst_Int (Some z)) \/
  (exists n, node = Obj.Inst_EnumInt (Some n)).
Proof.
  intros [[f H]|[[v H]|[n H]]].
  - left. exists f. rewrite Obj_new_Global in H. by injection H.
  - right; left. rewrite Obj_new_Int in H.
    destruct (Int.__init__ v) as [i|]; [|discriminate].
    exists (value i). by injection H.
  - right; right. rewrite Obj_new_EnumInt in H.
    destruct (EnumInt.__init__ n) as [e|]; [|discriminate].
    exists (name e). by injection H.
Qed.

(** No [__teal__] body assigns to an attribute: whatever the arguments and
    whatever the outcome, the instance is left as it was. *)
Lemma Obj_teal_keeps_attributes (posargs : list PyObject) (node : Obj.Instance) :
  (Obj.call___teal__ posargs node).1 = node.
Proof.
  destruct node as [[f|]|[z|]|[n|]]; destruct posargs as [|x [|y l]];
    try reflexivity.
  - destruct x; try reflexivity.
    unfold Obj.call___teal__, Obj.run, Obj.with_options. by rewrite Obj_Global_teal.
  - destruct x; reflexivity.
  - unfold Obj.call___teal__, Obj.run. by rewrite Obj_EnumInt_teal.
Qed.

(** C7. For a node of any of the three classes, as its constructor hands
    it back: [type_of()] returns a type and raises nothing; it takes no
    argument, so no lowering context reaches it; a call of [__teal__],
    with whatever arguments and whether it returns or raises, leaves the
    node's attributes as they were, and [type_of()] called after it returns
    the type it returned before. *)
Theorem type_of_unaffected_by_lowering
    (node : Obj.Instance) (posargs : list PyObject) :
  Obj.constructed node ->
  exists t : TealType.t,
    Obj.call_type_of [] node = (node, Ok t) /\
    (Obj.call___teal__ posargs node).1 = node /\
    Obj.call_type_of [] (Obj.call___teal__ posargs node).1 = (node, Ok t) /\
    (forall (x : PyObject) (xs : list PyObject),
       Obj.call_type_of (x :: xs) node =
         (node, Raise (TypeError "type_of" 0 (S (length xs))))).
Proof.
  intros Hc. rewrite Obj_teal_keeps_attributes.
  destruct (Obj_constructed_inv node Hc) as [[f ->]|[[z ->]|[n ->]]];
    eexists; repeat split.
Qed.

(** [Global.creator_address()] lowered under version 1, where the version
    check raises, and [Int(5)] lowered, where the builder call raises. *)
Lemma type_of_unaffected_by_lowering_witness :
  (exists t : TealType.t,
     Obj.call_type_of [] (Obj.Inst_Global (Some GlobalField.creator_address)) =
       (Obj.Inst_Global (Some GlobalField.creator_address), Ok t) /\
     (Obj.call___teal__ [Obj_Options {| version := 1 |}]
        (Obj.Inst_Global (Some GlobalField.creator_address))).1 =
       Obj.Inst_Global (Some GlobalField.creator_address) /\
     Obj.call_type_of []
       (Obj.call___teal__ [Obj_Options {| version := 1 |}]
          (Obj.Inst_Global (Some GlobalField.creator_address))).1 =
       (Obj.Inst_Global (Some GlobalField.creator_address), Ok t) /\
     (forall (x : PyObject) (xs : list PyObject),
        Obj.call_type_of (x :: xs) (Obj.Inst_Global (Some GlobalField.creator_address)) =
          (Obj.Inst_Global (Some GlobalField.creator_address),
           Raise (TypeError "type_of" 0 (S (length xs)))))) /\
  (exists t : TealType.t,
     Obj.call_type_of [] (Obj.Inst_Int (Some 5)) = (Obj.Inst_Int (Some 5), Ok t) /\
     (Obj.call___teal__ [] (Obj.Inst_Int (Some 5))).1 = Obj.Inst_Int (Some 5) /\
     Obj.call_type_of [] (Obj.call___teal__ [] (Obj.Inst_Int (Some 5))).1 =
       (Obj.Inst_Int (Some 5), Ok t) /\
     (forall (x : PyObject) (xs : list PyObject),
        Obj.call_type_of (x :: xs) (Obj.Inst_Int (Some 5)) =
          (Obj.Inst_Int (Some 5), Raise (TypeError "type_of" 0 (S (length xs)))))).
Proof.
  split.
  - apply (type_of_unaffected_by_lowering
             (Obj.Inst_Global (Some GlobalField.creator_address))
             [Obj_Options {| version := 1 |}]).
    left. exists GlobalField.creator_address. reflexivity.
  - apply (type_of_unaffected_by_lowering (Obj.Inst_Int (Some 5)) []).
    right; left. exists (PyInt 5). reflexivity.
Defined.

(** * Further properties of the two modules *)

(** ** Renderings *)

Lemma GlobalField_arg_name_inj (f g : GlobalField.t) :
  GlobalField.arg_name f = GlobalField.arg_name g -> f = g.
Proof. destruct f, g; intros H; reflexivity || discriminate H. Qed.

Lemma Int_str_Ok (a : Int_t) (s : string) :
  Int.__str__ a = Ok s -> s = "(Int: " +:+ pretty (value a) +:+ ")".
Proof.
  unfold Int.__str__. destruct (format_int (value a)) as [d|] eqn:E; [|discriminate].
  apply format_int_Ok in E. subst d. by intros [= <-].
Qed.

(** X1. [Int.__str__] tells values apart: two [Int] nodes holding
    different values never render to the same string. *)
Theorem Int_str_distinct (a b : Int_t) (s : string) :
  a <> b -> Int.__str__ a = Ok s -> Int.__str__ b <> Ok s.
Proof.
  intros Hne Ha Hb. apply Hne. destruct a as [x], b as [y].
  apply Int_str_Ok in Ha, Hb. cbn [value] in Ha, Hb. subst s.
  apply wrapped_inj, pretty_Z_inj in Hb. by subst.
Qed.

Lemma Int_str_distinct_witness :
  Int.__str__ {| value := 1 |} <> Ok "(Int: 10)".
Proof.
  apply (Int_str_distinct {| value := 10 |} {| value := 1 |} "(Int: 10)").
  - discriminate.
  - unfold Int.__str__. cbn [value]. rewrite format_int_uint64 by lia.
    vm_compute. reflexivity.
Defined.

(** X2. [EnumInt.__str__] keeps the symbolic name: nodes with different
    names render differently, also when the names stand for the same
    integer. *)
Theorem EnumInt_str_distinct (a b : EnumInt_t) :
  a <> b -> EnumInt.__str__ a <> EnumInt.__str__ b.
Proof.
  intros Hne Heq. apply Hne. destruct a as [x], b as [y].
  unfold EnumInt.__str__ in Heq. cbn [name] in Heq.
  apply wrapped_inj in Heq. by subst.
Qed.

Lemma EnumInt_str_distinct_witness :
  EnumInt.__str__ {| name := "OptIn" |} <> EnumInt.__str__ {| name := "pay" |}.
Proof.
  apply (EnumInt_str_distinct {| name := "OptIn" |} {| name := "pay" |}). discriminate.
Defined.

(** X3. [Global.__str__] tells the global properties apart: nodes for
    different fields render differently. *)
Theorem Global_str_distinct (a b : Global_t) :
  a <> b -> Global.__str__ a <> Global.__str__ b.
Proof.
  intros Hne Heq. apply Hne. destruct a as [f], b as [g].
  unfold Global.__str__ in Heq. cbn [field] in Heq.
  apply wrapped_inj, GlobalField_arg_name_inj in Heq. by subst.
Qed.

Lemma Global_str_distinct_witness :
  Global.__str__ Global.round <> Global.__str__ Global.group_size.
Proof. apply (Global_str_distinct Global.round Global.group_size). discriminate. Defined.

(** X4. The renderings of the three classes never coincide: the prefixes
    ["(Global "], ["(Int: "] and ["(IntEnum: "] keep them apart whatever the
    nodes hold. *)
Theorem str_classes_disjoint (g : Global_t) (i : Int_t) (e : EnumInt_t) :
  Int.__str__ i <> Ok (Global.__str__ g) /\
  Global.__str__ g <> EnumInt.__str__ e /\
  Int.__str__ i <> Ok (EnumInt.__str__ e).
Proof.
  split; [|split].
  - intros H. apply Int_str_Ok in H. revert H.
    unfold Global.__str__. cbn. discriminate.
  - unfold Global.__str__, EnumInt.__str__. cbn. discriminate.
  - intros H. apply Int_str_Ok in H. revert H.
    unfold EnumInt.__str__. cbn. discriminate.
Qed.

(** ** The enum table and [EnumInt] *)

Lemma intEnumValues_lookup_entry (n : string) (v : Z) :
  intEnumValues !! n = Some v -> In (n, v) intEnumValues_entries.
Proof.
  unfold intEnumValues, dict_literal. cbn [foldl fst snd]. intros H.
  repeat (apply lookup_insert_Some in H as [[<- <-]|[_ H]]; [cbn; tauto|]).
  by rewrite lookup_empty in H.
Qed.

Lemma intEnumValues_entry_lookup (n : string) (v : Z) :
  In (n, v) intEnumValues_entries -> intEnumValues !! n = Some v.
Proof.
  intros H. cbn in H.
  repeat (destruct H as [[= <- <-]|H]; [by vm_compute|]).
  destruct H.
Qed.

(** X5. The table holds exactly the thirteen entries written in its
    display: no name is written twice, so no entry shadows another, a lookup
    returns the value written next to the name, and nothing else is found.
    All values lie between 0 and 6. *)
Theorem intEnumValues_holds_its_entries (n : string) (v : Z) :
  (intEnumValues !! n = Some v <-> In (n, v) intEnumValues_entries) /\
  size intEnumValues = length intEnumValues_entries /\
  NoDup (map fst intEnumValues_entries) /\
  (intEnumValues !! n = Some v -> 0 <= v <= 6).
Proof.
  split; [split; [apply intEnumValues_lookup_entry | apply intEnumValues_entry_lookup]|].
  split; [by vm_compute|].
  split; [eapply (bool_decide_unpack _); by vm_compute|].
  intros H. apply intEnumValues_lookup_entry in H. cbn in H.
  repeat (destruct H as [[= <- <-]|H]; [lia|]). destruct H.
Qed.

Lemma intEnumValues_holds_its_entries_witness :
  intEnumValues !! "appl" = Some 6 /\ 0 <= 6 <= 6.
Proof.
  destruct (intEnumValues_holds_its_entries "appl" 6) as ([_ H] & _ & _ & Hr).
  assert (E : intEnumValues !! "appl" = Some 6) by (apply H; cbn; tauto).
  split; [exact E | exact (Hr E)].
Defined.

(** X6. A node that [EnumInt] constructed carries the name it was given,
    and the table lookup its lowering starts with cannot miss: it finds the
    table's value for the name, an integer in the unsigned 64-bit range
    that [Int] accepts as a literal. The lowering does not raise
    [KeyError]. *)
Theorem EnumInt_constructed_lookup (n : string) (e : EnumInt_t) :
  EnumInt.__init__ n = Ok e ->
  name e = n /\
  (exists v : Z,
     subscript intEnumValues (name e) = Ok v /\ 0 <= v < 2 ^ 64 /\
     Int.__init__ (PyInt v) = Ok {| value := v |}) /\
  (forall k : string, EnumInt.__teal__ e <> Raise (KeyError k)).
Proof.
  unfold EnumInt.__init__, dict_in. intros H.
  destruct (intEnumValues !! n) as [v|] eqn:E.
  - rewrite bool_decide_eq_true_2 in H by eauto. injection H as <-.
    destruct (intEnumValues_known n v E) as (_ & Hs & Ht).
    pose proof (intEnumValues_in_range n v E) as Hr.
    split; [reflexivity|]. split.
    + exists v. split; [exact Hs|]. split; [exact Hr|]. by apply Int_init_in_range.
    + intros k. rewrite Ht. discriminate.
  - rewrite bool_decide_eq_false_2 in H by (by intros [? ?]). discriminate.
Qed.

Lemma EnumInt_constructed_lookup_witness :
  name {| name := "axfer" |} = "axfer" /\
  (exists v : Z,
     subscript intEnumValues (name {| name := "axfer" |}) = Ok v /\ 0 <= v < 2 ^ 64 /\
     Int.__init__ (PyInt v) = Ok {| value := v |}) /\
  (forall k : string, EnumInt.__teal__ {| name := "axfer" |} <> Raise (KeyError k)).
Proof.
  apply (EnumInt_constructed_lookup "axfer" {| name := "axfer" |}).
  vm_compute. reflexivity.
Defined.

(** X7. Lowering an [EnumInt] node looks its name up again. A node whose
    [name] attribute is not a key of the table (the attribute was changed
    after construction) fails to lower with [KeyError] on that name, and
    lowering raises [KeyError] exactly when the constructor rejects the
    node's name. *)
Theorem EnumInt_teal_needs_known_name (e : EnumInt_t) :
  (intEnumValues !! name e = None ->
     EnumInt.__teal__ e = Raise (KeyError (name e))) /\
  ((exists k : string, EnumInt.__teal__ e = Raise (KeyError k)) <->
     EnumInt.__init__ (name e) <> Ok e).
Proof.
  destruct e as [n]. cbn [name].
  destruct (intEnumValues !! n) as [v|] eqn:E.
  - destruct (intEnumValues_known n v E) as (Hi & _ & Ht).
    split; [discriminate|]. rewrite Hi, Ht. split.
    + intros [k Hk]. discriminate.
    + intros H. by destruct H.
  - assert (Ht : EnumInt.__teal__ {| name := n |} = Raise (KeyError n))
      by (unfold EnumInt.__teal__, subscript; cbn [name]; by rewrite E).
    split; [done|]. split.
    + intros _ Hi. unfold EnumInt.__init__, dict_in in Hi.
      rewrite E, bool_decide_eq_false_2 in Hi by (by intros [? ?]). discriminate.
    + intros _. eauto.
Qed.

Lemma EnumInt_teal_needs_known_name_witness :
  EnumInt.__teal__ {| name := "Pay" |} = Raise (KeyError "Pay").
Proof.
  apply (EnumInt_teal_needs_known_name {| name := "Pay" |}). vm_compute. reflexivity.
Defined.

(** ** The registry, the factories and the version gate *)

(** X8. The ids of [GlobalField] number the members from 0 in the order
    they are defined: a member's id is its position in the enumeration. *)
Theorem GlobalField_id_is_position (f : GlobalField.t) :
  GlobalField.members !! Z.to_nat (GlobalField.id f) = Some f /\
  0 <= GlobalField.id f < Z.of_nat (length GlobalField.members).
Proof. destruct f; split; (reflexivity || (cbn; lia)). Qed.

(** X9. The ten factories of [Global] are bound to the ten members of the
    registry one to one and in the same order, [current_application_id] to
    [current_app_id] included: every member has its factory and no two
    factories return the same node. *)
Theorem Global_factories_cover_registry :
  map field Global_factories = GlobalField.members /\
  NoDup Global_factories /\
  (forall f : GlobalField.t, In (Global.__init__ f) Global_factories).
Proof.
  split; [reflexivity|]. split.
  - eapply (bool_decide_unpack _). by vm_compute.
  - intros f. destruct f; cbn; tauto.
Qed.

Lemma GlobalField_min_version_bounds (f : GlobalField.t) :
  2 <= GlobalField.min_version f <= 3 /\
  (GlobalField.min_version f = 3 <-> f = GlobalField.creator_address).
Proof. destruct f; cbn; repeat split; intros; (lia || discriminate || reflexivity). Qed.

Lemma Global_teal_Ok_inv (g : Global_t) (o : CompileOptions) (b : TealBlock.t) :
  Global.__teal__ g o = Ok b -> GlobalField.min_version (field g) <= version o.
Proof.
  unfold Global.__teal__, verifyFieldVersion.
  destruct (_ <=? _) eqn:E; [|discriminate]. intros _. by apply Z.leb_le.
Qed.

(** X10. Every registered field has minimum version 2 or 3, and only
    [creator_address] has 3. So under a version of 3 or more every [Global]
    node lowers, under a version below 2 none does, and under version 2
    exactly the nodes other than [creator_address] do. *)
Theorem Global_teal_thresholds (g : Global_t) (o : CompileOptions) :
  2 <= GlobalField.min_version (field g) <= 3 /\
  (3 <= version o -> exists b, Global.__teal__ g o = Ok b) /\
  (version o < 2 -> exists x, Global.__teal__ g o = Raise x) /\
  (version o = 2 ->
     ((exists b, Global.__teal__ g o = Ok b) <-> g <> Global.creator_address)).
Proof.
  destruct (GlobalField_min_version_bounds (field g)) as [Hb H3].
  split; [exact Hb|]. split; [|split].
  - intros H. eexists. apply Global_teal_supported. lia.
  - intros H. eexists. apply Global_teal_unsupported. lia.
  - intros H. split.
    + intros [b Hb'] ->. apply Global_teal_Ok_inv in Hb'. cbn in Hb'. lia.
    + intros Hne. eexists. apply Global_teal_supported.
      destruct (decide (GlobalField.min_version (field g) = 3)) as [E|E]; [|lia].
      apply H3 in E. destruct Hne. destruct g as [f]. cbn in E. by subst.
Qed.

Lemma Global_teal_thresholds_witness :
  (exists b, Global.__teal__ Global.creator_address {| version := 3 |} = Ok b) /\
  (exists x, Global.__teal__ Global.min_txn_fee {| version := 1 |} = Raise x) /\
  ((exists b, Global.__teal__ Global.round {| version := 2 |} = Ok b) <->
     Global.round <> Global.creator_address).
Proof.
  split; [|split].
  - destruct (Global_teal_thresholds Global.creator_address {| version := 3 |})
      as (_ & H & _). apply H. cbn. lia.
  - destruct (Global_teal_thresholds Global.min_txn_fee {| version := 1 |})
      as (_ & _ & H & _). apply H. cbn. lia.
  - destruct (Global_teal_thresholds Global.round {| version := 2 |})
      as (_ & _ & _ & H). apply H. reflexivity.
Defined.

(** X11. The version gate is monotone: a [Global] node that lowers under
    some version lowers to the same instruction under every later
    version. *)
Theorem Global_teal_monotone (g : Global_t) (o o' : CompileOptions) (b : TealBlock.t) :
  version o <= version o' ->
  Global.__teal__ g o = Ok b ->
  Global.__teal__ g o' = Ok b.
Proof.
  intros Hle Hb. pose proof (Global_teal_Ok_inv g o b Hb) as Hm.
  rewrite (Global_teal_supported g o Hm) in Hb. injection Hb as <-.
  apply Global_teal_supported. lia.
Qed.

Lemma Global_teal_monotone_witness :
  Global.__teal__ Global.creator_address {| version := 5 |} =
    Ok {| TealBlock.ops :=
            [ Obj_TealOp (Obj_Expr (Expr_Global Global.creator_address))
                (Obj_Op Op.global_) [Obj_value (PyStr "CreatorAddress")] ] |}.
Proof.
  apply (Global_teal_monotone Global.creator_address {| version := 3 |} {| version := 5 |}).
  - cbn. lia.
  - reflexivity.
Defined.

(** ** What the outcome of a constructor tells about its input *)

(** X12. The outcome of [Int(z)] identifies [z] as long as [z] can be
    written out: an accepted integer is stored unchanged, and the message
    of a rejected one of at most 4300 digits spells it out, so two different
    integers, one of them of at most 4300 digits, never have the same
    outcome. (Two rejected integers of more than 4300 digits both end in the
    same [ValueError].) *)
Theorem Int_init_identifies_int (a b : Z) :
  a <> b ->
  Z.abs a < 10 ^ int_max_str_digits \/ Z.abs b < 10 ^ int_max_str_digits ->
  Int.__init__ (PyInt a) <> Int.__init__ (PyInt b).
Proof.
  intros Hne Hlim H. apply Hne. revert H. rewrite !Int_init_int.
  destruct ((0 <=? a) && (a <? 2 ^ 64)), ((0 <=? b) && (b <? 2 ^ 64)).
  - intros H. by injection H.
  - destruct (format_int b); cbn; discriminate.
  - destruct (format_int a); cbn; discriminate.
  - destruct (format_int a) as [sa|ea] eqn:Ea, (format_int b) as [sb|eb] eqn:Eb;
      cbn; intros H.
    + injection H as H. apply wrapped_inj in H. subst sb.
      exact (format_int_inj a b sa Ea Eb).
    + apply format_int_Raise in Eb as [-> _]. discriminate H.
    + apply format_int_Raise in Ea as [-> _]. discriminate H.
    + apply format_int_Raise in Ea as [_ La]. apply format_int_Raise in Eb as [_ Lb].
      revert Hlim La Lb. generalize (10 ^ int_max_str_digits). intros; lia.
Qed.

Lemma Int_init_identifies_int_witness :
  Int.__init__ (PyInt (-1)) <> Int.__init__ (PyInt (-10)).
Proof.
  apply (Int_init_identifies_int (-1) (-10)); [lia | left].
  apply below_uint64_below_digit_limit. by vm_compute.
Defined.

(** X13. The outcome of [EnumInt(n)] identifies [n]: an accepted name is
    stored unchanged and a rejected one is quoted in the error message, so
    two different names never have the same outcome. *)
Theorem EnumInt_init_identifies_name (a b : string) :
  a <> b -> EnumInt.__init__ a <> EnumInt.__init__ b.
Proof.
  intros Hne H. apply Hne. revert H. unfold EnumInt.__init__.
  destruct (dict_in a intEnumValues), (dict_in b intEnumValues);
    cbn [negb]; intros H; try discriminate H.
  - by injection H.
  - injection H as H. by apply String.app_inj in H.
Qed.

Lemma EnumInt_init_identifies_name_witness :
  EnumInt.__init__ "Pay" <> EnumInt.__init__ "PAY".
Proof. apply (EnumInt_init_identifies_name "Pay" "PAY"). discriminate. Defined.
